(** * Prompt styles of [private_gpt/components/llm/prompt_helper.py]

    A shallow embedding of the prompt-formatting module: the Python
    string methods it relies on, the message types it receives from
    llama_index, the six [AbstractPromptStyle] subclasses, the style
    table [PROMPT_STYLE_CLS_MAP] and [get_prompt_style]; followed by the
    properties the specification states about them. *)

From Stdlib Require Import Ascii String NArith Bool List.
From stdpp Require Import base option list gmap strings.

Local Open Scope bool_scope.

(** ** Python strings

    A Python [str] is a sequence of code points.  A Rocq [string] stands
    for a [str] whose code points are below 256, one [ascii] per code
    point.  String concatenation is written [+:+]. *)

Module PyStr.

(** The line feed, written "\n" in the source. *)
Definition LF : string := String (ascii_of_N 10) EmptyString.

(** [str.isspace] on one code point below 256: U+0009..U+000D,
    U+001C..U+0020, U+0085 and U+00A0. *)
Definition isspace (c : ascii) : bool :=
  let n := N_of_ascii c in
  ((9 <=? n)%N && (n <=? 13)%N) || ((28 <=? n)%N && (n <=? 32)%N)
  || (n =? 133)%N || (n =? 160)%N.

(** [s.lstrip()] *)
Fixpoint lstrip (s : string) : string :=
  match s with
  | EmptyString => EmptyString
  | String c s' => if isspace c then lstrip s' else s
  end.

(** [s.rstrip()]: the longest prefix that does not end in whitespace. *)
Fixpoint rstrip (s : string) : string :=
  match s with
  | EmptyString => EmptyString
  | String c s' =>
      match rstrip s' with
      | EmptyString => if isspace c then EmptyString else String c EmptyString
      | r => String c r
      end
  end.

(** [s.strip()]: skip whitespace from the left, then cut it from the
    right of what remains. *)
Definition strip (s : string) : string := rstrip (lstrip s).

(** [str.lower] on one code point below 256: A..Z and the capital
    letters U+00C0..U+00DE other than the multiplication sign U+00D7
    move up by 32. *)
Definition lower_char (c : ascii) : ascii :=
  let n := N_of_ascii c in
  if ((65 <=? n)%N && (n <=? 90)%N)
     || ((192 <=? n)%N && (n <=? 222)%N && negb (n =? 215)%N)
  then ascii_of_N (n + 32) else c.

(** [s.lower()] *)
Fixpoint lower (s : string) : string :=
  match s with
  | EmptyString => EmptyString
  | String c s' => String (lower_char c) (lower s')
  end.

(** [sep.join(parts)] *)
Fixpoint join (sep : string) (parts : list string) : string :=
  match parts with
  | [] => EmptyString
  | [p] => p
  | p :: rest => p +:+ sep +:+ join sep rest
  end.

(** [str(x)] for an optional text [x]: [str(None)] is the four
    letters of [None]. *)
Definition str (x : option string) : string :=
  match x with
  | Some s => s
  | None => "None"
  end.

(** [x or d] for an optional text [x]: [None] and the empty string are
    falsy and give [d]. *)
Definition or_else (x : option string) (d : string) : string :=
  match x with
  | Some (String _ _ as s) => s
  | _ => d
  end.

End PyStr.

Import PyStr.

(** ** Messages ([llama_index.llms])

    [MessageRole] is a string-valued enumeration; besides the three roles
    of a plain conversation it has members for function and tool
    results.  A [ChatMessage] has a role and an optional text. *)

Inductive MessageRole : Type :=
| SYSTEM
| USER
| ASSISTANT
| FUNCTION
| TOOL.

(** The string each member of the enumeration is. *)
Definition role_value (r : MessageRole) : string :=
  match r with
  | SYSTEM => "system"
  | USER => "user"
  | ASSISTANT => "assistant"
  | FUNCTION => "function"
  | TOOL => "tool"
  end.

#[global] Instance MessageRole_eq_dec : EqDecision MessageRole.
Proof. solve_decision. Defined.

Record ChatMessage : Type := mkChatMessage {
  content : option string;
  role : MessageRole
}.

(** ** Exceptions and results *)

Inductive exception : Type :=
| UnknownPromptStyle (prompt_style : option string)
    (* ValueError(f"Unknown prompt_style='{prompt_style}'") *)
| UnknownMessageRole (r : MessageRole)
    (* ValueError(f"Unknown message role {message.role}") *)
| NoneTypeNotCallable
    (* TypeError: 'NoneType' object is not callable *)
| LibraryError (cls : string).
    (* an exception raised inside llama_index, named by its class *)

Inductive result (A : Type) : Type :=
| Ok (a : A)
| Raise (e : exception).

Arguments Ok {A} a.
Arguments Raise {A} e.

Definition bind {A B : Type} (x : result A) (k : A -> result B) : result B :=
  match x with
  | Ok a => k a
  | Raise e => Raise e
  end.

Notation "'let*' x ':=' c1 'in' c2" := (bind c1 (fun x => c2))
  (at level 10, x name, c1 at level 100, c2 at level 200).

(** A [for] loop over [items] whose body may raise: the state is threaded
    through the iterations and the first exception ends the loop. *)
Fixpoint for_each {S A : Type} (body : S -> A -> result S)
    (items : list A) (s : S) : result S :=
  match items with
  | [] => Ok s
  | x :: rest => let* s' := body s x in for_each body rest s'
  end.

(** ** [llama_index.llms.llama_utils]

    The two functions imported at the top of the module.  They belong to
    llama_index, so the module is embedded over any implementation of
    them: each returns a prompt or raises an exception of the library. *)

Inductive library_result : Type :=
| Returns (prompt : string)
| Raises (cls : string).

Class LlamaUtils : Type := {
  llama_messages_to_prompt : list ChatMessage -> library_result;
  llama_completion_to_prompt : string -> library_result
}.

Definition from_library (r : library_result) : result string :=
  match r with
  | Returns prompt => Ok prompt
  | Raises cls => Raise (LibraryError cls)
  end.

(** ** The prompt styles *)

(** The concrete subclasses of [AbstractPromptStyle].  Instances carry no
    data of their own, so an instance is identified with its class. *)
Inductive PromptStyle : Type :=
| DefaultPromptStyle
| Llama2PromptStyle
| TagPromptStyle
| MistralPromptStyle
| CodeLlamaPromptStyle
| ChatMLPromptStyle.

#[global] Instance PromptStyle_eq_dec : EqDecision PromptStyle.
Proof. solve_decision. Defined.

(** *** [TagPromptStyle] *)

Definition Tag_loop_body (prompt : string) (message : ChatMessage) : string :=
  let role := role message in
  let content := or_else (content message) "" in
  let message_from_user := "<|" +:+ lower (role_value role) +:+ "|>: " +:+ strip content in
  let message_from_user := message_from_user +:+ LF in
  prompt +:+ message_from_user.

Definition Tag_messages_to_prompt (messages : list ChatMessage) : string :=
  let prompt := "" in
  let prompt := fold_left Tag_loop_body messages prompt in
  let prompt := prompt +:+ "<|assistant|>: " in
  prompt.

Definition Tag_completion_to_prompt (completion : string) : string :=
  Tag_messages_to_prompt [mkChatMessage (Some completion) USER].

(** *** [DefaultPromptStyle] *)

Definition Default_messages_to_prompt (messages : list ChatMessage) : string := "".

Definition Default_completion_to_prompt (completion : string) : string := "".

(** *** [MistralPromptStyle]

    The loop state is the pair of [inst_buffer] and [text]. *)

Definition Mistral_loop_body (st : list string * string) (message : ChatMessage)
    : result (list string * string) :=
  let '(inst_buffer, text) := st in
  if bool_decide (role message = SYSTEM) || bool_decide (role message = USER) then
    Ok (inst_buffer ++ [strip (str (content message))], text)
  else if bool_decide (role message = ASSISTANT) then
    let text := text +:+ (("<s>[INST] " +:+ join LF inst_buffer) +:+ " [/INST]") in
    let text := text +:+ ((" " +:+ strip (str (content message))) +:+ "</s>") in
    Ok ([], text)
  else
    Raise (UnknownMessageRole (role message)).

Definition Mistral_messages_to_prompt (messages : list ChatMessage) : result string :=
  let* st := for_each Mistral_loop_body messages ([], "") in
  let '(inst_buffer, text) := st in
  let text :=
    if (0 <? length inst_buffer)%nat
    then text +:+ (("<s>[INST] " +:+ join LF inst_buffer) +:+ " [/INST]")
    else text in
  Ok text.

Definition Mistral_completion_to_prompt (completion : string) : result string :=
  Mistral_messages_to_prompt [mkChatMessage (Some completion) USER].

(** *** [CodeLlamaPromptStyle] *)

Definition CodeLlama_loop_body (prompt : string) (message : ChatMessage) : string :=
  let role := lower (role_value (role message)) in
  let content := or_else (content message) "" in
  let prompt := prompt +:+ ("Source: " +:+ role +:+ LF +:+ LF +:+ " ") in
  let prompt := prompt +:+ strip content in
  let prompt := prompt +:+ " <step> " in
  prompt.

Definition CodeLlama_messages_to_prompt (messages : list ChatMessage) : string :=
  let prompt := "<s>" in
  let prompt := fold_left CodeLlama_loop_body messages prompt in
  let prompt := prompt +:+ ("Source: assistant" +:+ LF +:+ "Destination: user" +:+ LF +:+ LF +:+ " ") in
  prompt.

Definition CodeLlama_completion_to_prompt (completion : string) : string :=
  CodeLlama_messages_to_prompt [mkChatMessage (Some completion) USER].

(** *** [ChatMLPromptStyle] *)

Definition ChatML_loop_body (prompt : string) (message : ChatMessage) : string :=
  let role := role message in
  let content := or_else (content message) "" in
  if String.eqb (lower (role_value role)) "system" then
    let message_from_user := strip content in
    prompt +:+ message_from_user
  else if String.eqb (lower (role_value role)) "user" then
    let prompt := prompt +:+ ("<|im_end|>" +:+ LF +:+ "<|im_start|>user" +:+ LF) in
    let message_from_user := strip content +:+ "<|im_end|>" +:+ LF in
    prompt +:+ message_from_user
  else
    prompt.

Definition ChatML_messages_to_prompt (messages : list ChatMessage) : string :=
  let prompt := "<|im_start|>system" +:+ LF in
  let prompt := fold_left ChatML_loop_body messages prompt in
  let prompt := prompt +:+ ("<|im_start|>assistant" +:+ LF) in
  prompt.

Definition ChatML_completion_to_prompt (completion : string) : string :=
  ChatML_messages_to_prompt [mkChatMessage (Some completion) USER].

(** *** Method dispatch

    [_messages_to_prompt] and [_completion_to_prompt] are the abstract
    methods each subclass overrides; [Llama2PromptStyle] hands its
    argument to the function of the same name in llama_utils. *)

Section Methods.

Context {LU : LlamaUtils}.

Definition _messages_to_prompt (self : PromptStyle)
    (messages : list ChatMessage) : result string :=
  match self with
  | DefaultPromptStyle => Ok (Default_messages_to_prompt messages)
  | Llama2PromptStyle => from_library (llama_messages_to_prompt messages)
  | TagPromptStyle => Ok (Tag_messages_to_prompt messages)
  | MistralPromptStyle => Mistral_messages_to_prompt messages
  | CodeLlamaPromptStyle => Ok (CodeLlama_messages_to_prompt messages)
  | ChatMLPromptStyle => Ok (ChatML_messages_to_prompt messages)
  end.

Definition _completion_to_prompt (self : PromptStyle)
    (completion : string) : result string :=
  match self with
  | DefaultPromptStyle => Ok (Default_completion_to_prompt completion)
  | Llama2PromptStyle => from_library (llama_completion_to_prompt completion)
  | TagPromptStyle => Ok (Tag_completion_to_prompt completion)
  | MistralPromptStyle => Mistral_completion_to_prompt completion
  | CodeLlamaPromptStyle => Ok (CodeLlama_completion_to_prompt completion)
  | ChatMLPromptStyle => Ok (ChatML_completion_to_prompt completion)
  end.

(** The methods [AbstractPromptStyle] defines on top of them.  The call
    to [logger.debug] between computing the prompt and returning it
    leaves the prompt as it is and is not modelled. *)
Definition AbstractPromptStyle_messages_to_prompt (self : PromptStyle)
    (messages : list ChatMessage) : result string :=
  let* prompt := _messages_to_prompt self messages in
  Ok prompt.

Definition AbstractPromptStyle_completion_to_prompt (self : PromptStyle)
    (completion : string) : result string :=
  let* prompt := _completion_to_prompt self completion in
  Ok prompt.

(** What the attributes [messages_to_prompt] and [completion_to_prompt]
    of an instance hold.  [DefaultPromptStyle.__init__] assigns [None]
    to both on the instance it builds; every other instance finds the
    method of [AbstractPromptStyle]. *)
Definition attr_messages_to_prompt (self : PromptStyle)
    : option (list ChatMessage -> result string) :=
  match self with
  | DefaultPromptStyle => None
  | _ => Some (AbstractPromptStyle_messages_to_prompt self)
  end.

Definition attr_completion_to_prompt (self : PromptStyle)
    : option (string -> result string) :=
  match self with
  | DefaultPromptStyle => None
  | _ => Some (AbstractPromptStyle_completion_to_prompt self)
  end.

(** Calling an attribute: [None] is not callable. *)
Definition call {A B : Type} (f : option (A -> result B)) (x : A) : result B :=
  match f with
  | Some g => g x
  | None => Raise NoneTypeNotCallable
  end.

(** [style.messages_to_prompt(messages)] and
    [style.completion_to_prompt(completion)] as a caller writes them. *)
Definition messages_to_prompt (self : PromptStyle)
    (messages : list ChatMessage) : result string :=
  call (attr_messages_to_prompt self) messages.

Definition completion_to_prompt (self : PromptStyle)
    (completion : string) : result string :=
  call (attr_completion_to_prompt self) completion.

End Methods.

(** ** The style table and [get_prompt_style] *)

Definition PROMPT_STYLE_CLS_MAP : gmap (option string) PromptStyle :=
  list_to_map
    [ (None, DefaultPromptStyle);
      (Some "default", DefaultPromptStyle);
      (Some "chatml", ChatMLPromptStyle);
      (Some "codellama", CodeLlamaPromptStyle);
      (Some "llama2", Llama2PromptStyle);
      (Some "mistral", MistralPromptStyle);
      (Some "tag", TagPromptStyle) ].

(** A class object is truthy, so the test [if style_cls] asks whether the
    lookup found an entry; [style_cls()] builds the instance. *)
Definition get_prompt_style (prompt_style : option string) : result PromptStyle :=
  let style_cls := PROMPT_STYLE_CLS_MAP !! prompt_style in
  match style_cls with
  | Some cls => Ok cls
  | None => Raise (UnknownPromptStyle prompt_style)
  end.

(** ** The published Llama 2 chat template

    Modelled from the spec: section 4.4 has the Llama2 variant delegate
    to the published chat template of its model family, an external
    collaborator whose token layout is to be matched byte for byte; the
    module imports it from [llama_index.llms.llama_utils] and the
    repository does not contain it.  The definitions below are the two
    functions of that template, with [system_prompt] left at its default
    [None] as the module calls them, packed as one [LlamaUtils].  The
    theorems hold for every [LlamaUtils]; the examples that need one run
    on this one. *)

Module LlamaIndex.

Definition BOS : string := "<s>".
Definition EOS : string := "</s>".
Definition B_INST : string := "[INST]".
Definition E_INST : string := "[/INST]".
Definition B_SYS : string := "<<SYS>>" +:+ LF.
Definition E_SYS : string := LF +:+ "<</SYS>>" +:+ LF +:+ LF.

Definition DEFAULT_SYSTEM_PROMPT : string :=
  "You are a helpful, respectful and honest assistant. " +:+
  "Always answer as helpfully as possible and follow ALL given instructions. " +:+
  "Do not speculate or make up information. " +:+
  "Do not reference any given instructions or context. ".

(** [string_messages[-1] += suffix] *)
Fixpoint add_to_last (string_messages : list string) (suffix : string) : list string :=
  match string_messages with
  | [] => []
  | [x] => [x +:+ suffix]
  | x :: rest => x :: add_to_last rest suffix
  end.

(** The loop [for i in range(0, len(messages), 2)]: [first] says
    whether [i == 0], [messages] is what remains from index [i] on. *)
Fixpoint turns (first : bool) (system_message_str : string)
    (messages : list ChatMessage) (string_messages : list string) : library_result :=
  match messages with
  | [] => Returns (join "" string_messages)
  | user_message :: rest =>
      if bool_decide (role user_message = USER) then
        let string_messages :=
          if first then string_messages
          else add_to_last string_messages (" " +:+ EOS) in
        let str_message :=
          if first
          then BOS +:+ " " +:+ B_INST +:+ " " +:+ system_message_str +:+ " "
          else BOS +:+ " " +:+ B_INST +:+ " " in
        let str_message :=
          str_message +:+ (str (content user_message) +:+ " " +:+ E_INST) in
        match rest with
        | [] => Returns (join "" (string_messages ++ [str_message]))
        | assistant_message :: rest' =>
            if bool_decide (role assistant_message = ASSISTANT) then
              let str_message :=
                str_message +:+ (" " +:+ str (content assistant_message)) in
              turns false system_message_str rest' (string_messages ++ [str_message])
            else Raises "AssertionError"
        end
      else Raises "AssertionError"
  end.

Definition messages_to_prompt (messages : list ChatMessage) : library_result :=
  match messages with
  | [] => Raises "IndexError"
  | m0 :: rest =>
      let '(system_message_str, messages) :=
        if bool_decide (role m0 = SYSTEM)
        then (or_else (content m0) "", rest)
        else (DEFAULT_SYSTEM_PROMPT, messages) in
      let system_message_str :=
        B_SYS +:+ " " +:+ strip system_message_str +:+ " " +:+ E_SYS in
      turns true system_message_str messages []
  end.

Definition completion_to_prompt (completion : string) : library_result :=
  let system_prompt_str := DEFAULT_SYSTEM_PROMPT in
  Returns
    ((BOS +:+ " " +:+ B_INST +:+ " " +:+ B_SYS +:+ " " +:+ strip system_prompt_str
        +:+ " " +:+ E_SYS +:+ " ")
     +:+ (strip completion +:+ " " +:+ E_INST)).

Definition llama_utils : LlamaUtils :=
  {| llama_messages_to_prompt := messages_to_prompt;
     llama_completion_to_prompt := completion_to_prompt |}.

End LlamaIndex.

(** ** Vocabulary of the specification

    The definitions below follow the words of the specification; the
    theorems compare them with the embedding above. *)

(** The six style names and the absent name. *)
Definition STYLE_NAMES : list (option string) :=
  [ None; Some "default"; Some "chatml"; Some "codellama"; Some "llama2";
    Some "mistral"; Some "tag" ].

(** The variants that format conversations themselves: every variant but
    Default, which formats nothing, and Llama2, which asks llama_utils. *)
Definition OWN_FORMATTERS : list PromptStyle :=
  [ TagPromptStyle; MistralPromptStyle; CodeLlamaPromptStyle; ChatMLPromptStyle ].

(** The roles of a plain conversation. *)
Definition supported_role (r : MessageRole) : bool :=
  match r with
  | SYSTEM | USER | ASSISTANT => true
  | _ => false
  end.

Definition is_system_or_user (m : ChatMessage) : bool :=
  match role m with
  | SYSTEM | USER => true
  | _ => false
  end.

(** Absent content read as the empty string. *)
Definition text_of (m : ChatMessage) : string :=
  match content m with
  | Some s => s
  | None => ""
  end.

(** The same message with its content, when it has one, stripped of
    surrounding whitespace. *)
Definition strip_content (m : ChatMessage) : ChatMessage :=
  mkChatMessage (strip <$> content m) (role m).

(** The same message with an absent content made the empty string. *)
Definition fill_content (m : ChatMessage) : ChatMessage :=
  mkChatMessage (Some (text_of m)) (role m).

(** Whether a string begins, or ends, with a whitespace character. *)
Definition starts_with_space (s : string) : bool :=
  match s with
  | EmptyString => false
  | String c _ => isspace c
  end.

Fixpoint ends_with_space (s : string) : bool :=
  match s with
  | EmptyString => false
  | String c EmptyString => isspace c
  | String _ s' => ends_with_space s'
  end.

(** All the strings of a list, one after the other. *)
Fixpoint concat_all (parts : list string) : string :=
  match parts with
  | [] => EmptyString
  | p :: rest => p +:+ concat_all rest
  end.

(** Tag: one line per message, then the cue. *)
Definition Tag_line (m : ChatMessage) : string :=
  "<|" +:+ lower (role_value (role m)) +:+ "|>: " +:+ strip (text_of m) +:+ LF.

Definition Tag_format (messages : list ChatMessage) : string :=
  concat_all (Tag_line <$> messages) +:+ "<|assistant|>: ".

(** CodeLlama: one segment per message, then the cue. *)
Definition CodeLlama_segment (m : ChatMessage) : string :=
  "Source: " +:+ lower (role_value (role m)) +:+ LF +:+ LF +:+ " "
  +:+ strip (text_of m) +:+ " <step> ".

(** ChatML: what a message adds to the prompt. *)
Definition ChatML_piece (m : ChatMessage) : string :=
  match role m with
  | SYSTEM => strip (text_of m)
  | USER =>
      "<|im_end|>" +:+ LF +:+ "<|im_start|>user" +:+ LF
      +:+ strip (text_of m) +:+ "<|im_end|>" +:+ LF
  | _ => ""
  end.

(** Mistral: the instruction block of a buffer, and the blocks of a
    conversation read from left to right with the buffer of instructions
    met since the last flush.  A message contributes its content as [str]
    shows it, trimmed. *)
Definition instruction_block (buffer : list string) : string :=
  "<s>[INST] " +:+ join LF buffer +:+ " [/INST]".

Fixpoint Mistral_blocks (buffer : list string) (messages : list ChatMessage)
    : result string :=
  match messages with
  | [] =>
      Ok (match buffer with
          | [] => ""
          | _ => instruction_block buffer
          end)
  | m :: rest =>
      match role m with
      | SYSTEM | USER =>
          Mistral_blocks (buffer ++ [strip (str (content m))]) rest
      | ASSISTANT =>
          let* out := Mistral_blocks [] rest in
          Ok (instruction_block buffer +:+ " " +:+ strip (str (content m))
              +:+ "</s>" +:+ out)
      | _ => Raise (UnknownMessageRole (role m))
      end
  end.


(** The end of [MistralPromptStyle._messages_to_prompt], after the loop. *)
Definition Mistral_finish (st : list string * string) : result string :=
  let '(inst_buffer, text) := st in
  Ok (if (0 <? length inst_buffer)%nat
      then text +:+ (("<s>[INST] " +:+ join LF inst_buffer) +:+ " [/INST]")
      else text).

(** Whether a string is made of whitespace only; the empty string is. *)
Fixpoint all_space (s : string) : bool :=
  match s with
  | EmptyString => true
  | String c s' => isspace c && all_space s'
  end.

(** The same message, a content of whitespace only made the empty
    string. *)
Definition blank_to_empty (m : ChatMessage) : ChatMessage :=
  match content m with
  | Some c => if all_space c then mkChatMessage (Some "") (role m) else m
  | None => m
  end.

(** The same message, said by the user if it was a system message. *)
Definition system_as_user (m : ChatMessage) : ChatMessage :=
  mkChatMessage (content m)
    (match role m with
     | SYSTEM => USER
     | r => r
     end).

(** One turn of a chat, a question and its answer, as two messages and
    as the closed block the Mistral style makes of them. *)
Definition turn_messages (t : string * string) : list ChatMessage :=
  [mkChatMessage (Some (fst t)) USER; mkChatMessage (Some (snd t)) ASSISTANT].

Definition turn_block (t : string * string) : string :=
  "<s>[INST] " +:+ strip (fst t) +:+ " [/INST] " +:+ strip (snd t) +:+ "</s>".

(** ** Strings *)

Lemma append_cons (c : ascii) (s t : string) :
  String c s +:+ t = String c (s +:+ t).
Proof. reflexivity. Qed.

Lemma append_empty_r (s : string) : s +:+ "" = s.
Proof.
  induction s as [|c s IH]; [reflexivity|].
  rewrite append_cons, IH. reflexivity.
Qed.

Lemma append_assoc (s t u : string) : (s +:+ t) +:+ u = s +:+ (t +:+ u).
Proof.
  induction s as [|c s IH]; [reflexivity|].
  rewrite !append_cons, IH. reflexivity.
Qed.

Lemma lstrip_no_leading_space (s : string) :
  starts_with_space (lstrip s) = false.
Proof.
  induction s as [|c s IH]; simpl; [reflexivity|].
  destruct (isspace c) eqn:Hc; [exact IH|].
  simpl. exact Hc.
Qed.

Lemma lstrip_fixed (s : string) :
  starts_with_space s = false -> lstrip s = s.
Proof.
  destruct s as [|c s]; simpl; [reflexivity|].
  intros ->. reflexivity.
Qed.

Lemma rstrip_keeps_start (s : string) :
  starts_with_space s = false -> starts_with_space (rstrip s) = false.
Proof.
  destruct s as [|c s]; simpl; [reflexivity|].
  intros Hc. destruct (rstrip s); rewrite ?Hc; simpl; exact Hc.
Qed.

Lemma rstrip_idempotent (s : string) : rstrip (rstrip s) = rstrip s.
Proof.
  induction s as [|c s IH]; simpl; [reflexivity|].
  destruct (rstrip s) as [|d r] eqn:Hr.
  - destruct (isspace c) eqn:Hc; simpl; rewrite ?Hc; reflexivity.
  - change (rstrip (String c (String d r))) with
      (match rstrip (String d r) with
       | EmptyString => if isspace c then EmptyString else String c EmptyString
       | r' => String c r'
       end).
    rewrite IH. reflexivity.
Qed.

Lemma rstrip_no_trailing_space (s : string) :
  ends_with_space (rstrip s) = false.
Proof.
  induction s as [|c s IH]; simpl; [reflexivity|].
  destruct (rstrip s) as [|d r] eqn:Hr.
  - destruct (isspace c) eqn:Hc; simpl; [reflexivity|exact Hc].
  - exact IH.
Qed.

Lemma strip_idempotent (s : string) : strip (strip s) = strip s.
Proof.
  unfold strip.
  rewrite (lstrip_fixed (rstrip (lstrip s))).
  - apply rstrip_idempotent.
  - apply rstrip_keeps_start, lstrip_no_leading_space.
Qed.

Lemma strip_no_surrounding_space (s : string) :
  starts_with_space (strip s) = false /\ ends_with_space (strip s) = false.
Proof.
  unfold strip. split.
  - apply rstrip_keeps_start, lstrip_no_leading_space.
  - apply rstrip_no_trailing_space.
Qed.

Lemma or_else_empty (x : option string) :
  or_else x "" = match x with Some s => s | None => "" end.
Proof. destruct x as [[|c s]|]; reflexivity. Qed.

(** ** Loops *)

(** A loop that appends one piece per item builds the pieces in order
    behind what it started from. *)
Lemma fold_left_append {A : Type} (body : string -> A -> string)
    (piece : A -> string) :
  (forall acc x, body acc x = acc +:+ piece x) ->
  forall items acc,
    fold_left body items acc = acc +:+ concat_all (piece <$> items).
Proof.
  intros Hbody items.
  induction items as [|x items IH]; intros acc; simpl.
  - symmetry. apply append_empty_r.
  - rewrite IH, Hbody, append_assoc. reflexivity.
Qed.

(** A loop does not see a change of its items that its body ignores. *)
Lemma fold_left_body_ignores {S A : Type} (body : S -> A -> S) (f : A -> A) :
  (forall s x, body s (f x) = body s x) ->
  forall items s, fold_left body (f <$> items) s = fold_left body items s.
Proof.
  intros Hbody items.
  induction items as [|x items IH]; intros s; simpl; [reflexivity|].
  rewrite Hbody. apply IH.
Qed.

Lemma for_each_body_ignores {S A : Type} (body : S -> A -> result S) (f : A -> A) :
  (forall s x, body s (f x) = body s x) ->
  forall items s, for_each body (f <$> items) s = for_each body items s.
Proof.
  intros Hbody items.
  induction items as [|x items IH]; intros s; simpl; [reflexivity|].
  rewrite Hbody. destruct (body s x) as [s'|e]; simpl; [apply IH|reflexivity].
Qed.

(** ** The formatters against the words of the specification *)

Lemma Tag_loop_body_piece (prompt : string) (m : ChatMessage) :
  Tag_loop_body prompt m = prompt +:+ Tag_line m.
Proof.
  unfold Tag_loop_body, Tag_line, text_of.
  rewrite or_else_empty, !append_assoc. reflexivity.
Qed.

Lemma Tag_messages_to_prompt_format (messages : list ChatMessage) :
  Tag_messages_to_prompt messages = Tag_format messages.
Proof.
  unfold Tag_messages_to_prompt, Tag_format.
  rewrite (fold_left_append _ _ Tag_loop_body_piece). reflexivity.
Qed.

Lemma CodeLlama_loop_body_piece (prompt : string) (m : ChatMessage) :
  CodeLlama_loop_body prompt m = prompt +:+ CodeLlama_segment m.
Proof.
  unfold CodeLlama_loop_body, CodeLlama_segment, text_of.
  rewrite or_else_empty, !append_assoc. reflexivity.
Qed.

Lemma CodeLlama_messages_to_prompt_format (messages : list ChatMessage) :
  CodeLlama_messages_to_prompt messages
  = "<s>" +:+ concat_all (CodeLlama_segment <$> messages)
    +:+ "Source: assistant" +:+ LF +:+ "Destination: user" +:+ LF +:+ LF +:+ " ".
Proof.
  unfold CodeLlama_messages_to_prompt.
  rewrite (fold_left_append _ _ CodeLlama_loop_body_piece), !append_assoc.
  reflexivity.
Qed.

Lemma ChatML_loop_body_piece (prompt : string) (m : ChatMessage) :
  ChatML_loop_body prompt m = prompt +:+ ChatML_piece m.
Proof.
  unfold ChatML_loop_body, ChatML_piece, text_of.
  rewrite or_else_empty.
  destruct (role m); simpl;
    rewrite ?append_assoc, ?append_empty_r; reflexivity.
Qed.

Lemma ChatML_messages_to_prompt_format (messages : list ChatMessage) :
  ChatML_messages_to_prompt messages
  = "<|im_start|>system" +:+ LF +:+ concat_all (ChatML_piece <$> messages)
    +:+ "<|im_start|>assistant" +:+ LF.
Proof.
  unfold ChatML_messages_to_prompt.
  rewrite (fold_left_append _ _ ChatML_loop_body_piece), !append_assoc.
  reflexivity.
Qed.

(** The loop of the Mistral formatter, run from any buffer and text,
    appends to the text the blocks of the messages it reads. *)
Lemma Mistral_loop_blocks (messages : list ChatMessage) :
  forall inst_buffer text,
    (let* st := for_each Mistral_loop_body messages (inst_buffer, text) in
     Mistral_finish st)
    = (let* out := Mistral_blocks inst_buffer messages in Ok (text +:+ out)).
Proof.
  induction messages as [|m rest IH]; intros inst_buffer text.
  - simpl. destruct inst_buffer as [|b buffer]; simpl.
    + rewrite append_empty_r. reflexivity.
    + unfold instruction_block. rewrite !append_assoc. reflexivity.
  - simpl. unfold Mistral_loop_body at 1.
    destruct (role m) eqn:Hrole; simpl.
    + apply IH.
    + apply IH.
    + rewrite IH.
      destruct (Mistral_blocks [] rest) as [out|e]; simpl; [|reflexivity].
      unfold instruction_block. rewrite !append_assoc. reflexivity.
    + reflexivity.
    + reflexivity.
Qed.

Lemma Mistral_messages_to_prompt_blocks (messages : list ChatMessage) :
  Mistral_messages_to_prompt messages = Mistral_blocks [] messages.
Proof.
  pose proof (Mistral_loop_blocks messages [] "") as H.
  unfold Mistral_messages_to_prompt.
  unfold Mistral_finish in H.
  etrans; [|etrans; [exact H|]].
  - destruct (for_each Mistral_loop_body messages ([], "")) as [[b t]|e];
      reflexivity.
  - destruct (Mistral_blocks [] messages); reflexivity.
Qed.

(** ** The style table *)

Lemma get_prompt_style_unknown (name : option string) :
  name ∉ STYLE_NAMES ->
  get_prompt_style name = Raise (UnknownPromptStyle name).
Proof.
  intros Hname. unfold get_prompt_style, PROMPT_STYLE_CLS_MAP.
  rewrite (not_elem_of_list_to_map_1 _ name); [reflexivity|].
  exact Hname.
Qed.

(** Splits a membership in a list written out in full into its cases. *)
Ltac cases_elem_of H :=
  repeat (let E := fresh "E" in
          apply elem_of_cons in H as [E|H]; [subst|]);
  try (apply elem_of_nil in H; contradiction).

(** C1: [get_prompt_style] returns a style for the absent name and for
    each of the six style names, the absent name and ["default"] both
    giving the Default style, and never raises on them; on every other
    name it raises the unknown-style error carrying that very name:
    names are compared exactly and nothing falls back to Default. *)
Theorem get_prompt_style_closed_set :
  get_prompt_style None = Ok DefaultPromptStyle
  /\ get_prompt_style (Some "default") = Ok DefaultPromptStyle
  /\ get_prompt_style (Some "chatml") = Ok ChatMLPromptStyle
  /\ get_prompt_style (Some "codellama") = Ok CodeLlamaPromptStyle
  /\ get_prompt_style (Some "llama2") = Ok Llama2PromptStyle
  /\ get_prompt_style (Some "mistral") = Ok MistralPromptStyle
  /\ get_prompt_style (Some "tag") = Ok TagPromptStyle
  /\ (forall name, name ∈ STYLE_NAMES ->
        exists style, get_prompt_style name = Ok style)
  /\ (forall name, name ∉ STYLE_NAMES ->
        get_prompt_style name = Raise (UnknownPromptStyle name)).
Proof.
  repeat (split; [vm_compute; reflexivity|]).
  split.
  - intros name Hname. unfold STYLE_NAMES in Hname.
    cases_elem_of Hname; eexists; vm_compute; reflexivity.
  - intros name Hname. apply get_prompt_style_unknown, Hname.
Qed.

(** A name that differs from a style name only in its case is unknown. *)
Lemma get_prompt_style_closed_set_witness :
  (Some "Mistral" ∉ STYLE_NAMES)
  /\ get_prompt_style (Some "Mistral") = Raise (UnknownPromptStyle (Some "Mistral"))
  /\ exists style, get_prompt_style (Some "tag") = Ok style.
Proof.
  assert (Hout : Some "Mistral" ∉ STYLE_NAMES).
  { unfold STYLE_NAMES. intros H. cases_elem_of H; discriminate. }
  destruct get_prompt_style_closed_set
    as (_ & _ & _ & _ & _ & _ & _ & Hin & Hunknown).
  split; [exact Hout|]. split.
  - exact (Hunknown _ Hout).
  - apply Hin. unfold STYLE_NAMES. rewrite !elem_of_cons. tauto.
Defined.

(** ** The Default style *)

(** C2, on a concrete input: asking a Default style to format the empty
    conversation, or the empty completion, returns no string; the
    attribute that is called holds [None]. *)
Lemma Default_operations_not_callable :
  messages_to_prompt (LU := LlamaIndex.llama_utils) DefaultPromptStyle []
    = Raise NoneTypeNotCallable
  /\ messages_to_prompt (LU := LlamaIndex.llama_utils) DefaultPromptStyle []
       <> Ok ""
  /\ completion_to_prompt (LU := LlamaIndex.llama_utils) DefaultPromptStyle ""
       <> Ok "".
Proof. repeat split; discriminate. Qed.

(** C2, amended: for the Default style the overridden methods
    [_messages_to_prompt] and [_completion_to_prompt] return the empty
    string on every input, while the attributes [messages_to_prompt] and
    [completion_to_prompt] of a Default instance hold [None], so that
    calling them raises instead of returning. *)
Theorem Default_formats_to_empty {LU : LlamaUtils} :
  (forall messages, _messages_to_prompt DefaultPromptStyle messages = Ok "")
  /\ (forall completion, _completion_to_prompt DefaultPromptStyle completion = Ok "")
  /\ attr_messages_to_prompt DefaultPromptStyle = None
  /\ attr_completion_to_prompt DefaultPromptStyle = None
  /\ (forall messages,
        messages_to_prompt DefaultPromptStyle messages = Raise NoneTypeNotCallable)
  /\ (forall completion,
        completion_to_prompt DefaultPromptStyle completion = Raise NoneTypeNotCallable).
Proof. repeat split. Qed.

(** ** Absent content *)

(** Tag, CodeLlama and ChatML look at a message through its role and
    through its content, absent read as empty, stripped: they do not see
    a change of the messages that keeps both. *)
Lemma or_else_formatters_ignore (f : ChatMessage -> ChatMessage)
    (messages : list ChatMessage) :
  (forall m, role (f m) = role m) ->
  (forall m, strip (or_else (content (f m)) "") = strip (or_else (content m) "")) ->
  Tag_messages_to_prompt (f <$> messages) = Tag_messages_to_prompt messages
  /\ CodeLlama_messages_to_prompt (f <$> messages)
     = CodeLlama_messages_to_prompt messages
  /\ ChatML_messages_to_prompt (f <$> messages)
     = ChatML_messages_to_prompt messages.
Proof.
  intros Hrole Htext. repeat split.
  - unfold Tag_messages_to_prompt. f_equal.
    apply fold_left_body_ignores. intros acc m.
    unfold Tag_loop_body. rewrite Hrole, Htext. reflexivity.
  - unfold CodeLlama_messages_to_prompt. f_equal.
    apply fold_left_body_ignores. intros acc m.
    unfold CodeLlama_loop_body. rewrite Hrole, Htext. reflexivity.
  - unfold ChatML_messages_to_prompt. f_equal.
    apply fold_left_body_ignores. intros acc m.
    unfold ChatML_loop_body. rewrite Hrole, Htext. reflexivity.
Qed.

(** Tag, CodeLlama and ChatML read an absent content as the empty
    string. *)
Lemma absent_content_read_as_empty {LU : LlamaUtils}
    (style : PromptStyle) (messages : list ChatMessage) :
  style ∈ [TagPromptStyle; CodeLlamaPromptStyle; ChatMLPromptStyle] ->
  messages_to_prompt style (fill_content <$> messages)
  = messages_to_prompt style messages.
Proof.
  destruct (or_else_formatters_ignore fill_content messages)
    as (HTag & HCodeLlama & HChatML).
  { reflexivity. }
  { intros [[[|c s]|] r]; reflexivity. }
  intros Hstyle. cases_elem_of Hstyle; unfold messages_to_prompt; simpl;
    unfold AbstractPromptStyle_messages_to_prompt; simpl; f_equal; assumption.
Qed.

(** C3, at the input where it fails: the Mistral style formats a message
    without content as the text [None], not as it formats a message whose
    content is the empty string. *)
Theorem Mistral_absent_content_is_None_text {LU : LlamaUtils} :
  messages_to_prompt MistralPromptStyle [mkChatMessage None USER]
    = Ok "<s>[INST] None [/INST]"
  /\ messages_to_prompt MistralPromptStyle [mkChatMessage (Some "") USER]
    = Ok "<s>[INST]  [/INST]"
  /\ messages_to_prompt MistralPromptStyle [mkChatMessage None USER]
     <> messages_to_prompt MistralPromptStyle [mkChatMessage (Some "") USER].
Proof. repeat split. discriminate. Qed.

(** ** Completions *)

(** C4, on a concrete input: with the llama_utils of llama_index, the
    Llama2 style formats the completion [" hi"] and the conversation of the
    one USER message [" hi"] differently. *)
Lemma Llama2_completion_is_not_one_message :
  completion_to_prompt (LU := LlamaIndex.llama_utils) Llama2PromptStyle " hi"
  <> messages_to_prompt (LU := LlamaIndex.llama_utils) Llama2PromptStyle
       [mkChatMessage (Some " hi") USER].
Proof. vm_compute. intros H. discriminate H. Qed.

(** C4, amended: for the Tag, Mistral, CodeLlama and ChatML styles,
    [completion_to_prompt] of a text is [messages_to_prompt] of the
    conversation made of one USER message with that text; the Llama2
    style returns what [completion_to_prompt] of llama_utils returns for
    the text, without building a message. *)
Theorem completion_is_one_user_message {LU : LlamaUtils}
    (style : PromptStyle) (completion : string) :
  (style ∈ OWN_FORMATTERS ->
   completion_to_prompt style completion
   = messages_to_prompt style [mkChatMessage (Some completion) USER])
  /\ completion_to_prompt Llama2PromptStyle completion
     = from_library (llama_completion_to_prompt completion).
Proof.
  split.
  - intros Hstyle. unfold OWN_FORMATTERS in Hstyle.
    cases_elem_of Hstyle; reflexivity.
  - unfold completion_to_prompt; simpl.
    unfold AbstractPromptStyle_completion_to_prompt; simpl.
    destruct (llama_completion_to_prompt completion); reflexivity.
Qed.

Lemma completion_is_one_user_message_witness :
  (CodeLlamaPromptStyle ∈ OWN_FORMATTERS)
  /\ completion_to_prompt (LU := LlamaIndex.llama_utils) CodeLlamaPromptStyle "hi"
     = messages_to_prompt (LU := LlamaIndex.llama_utils) CodeLlamaPromptStyle
         [mkChatMessage (Some "hi") USER].
Proof.
  assert (Hin : CodeLlamaPromptStyle ∈ OWN_FORMATTERS).
  { unfold OWN_FORMATTERS. rewrite !elem_of_cons. tauto. }
  split; [exact Hin|].
  exact (proj1 (completion_is_one_user_message
                  (LU := LlamaIndex.llama_utils) CodeLlamaPromptStyle "hi") Hin).
Defined.

(** ** The Mistral style *)

Lemma bind_Ok_r {A : Type} (r : result A) : (let* x := r in Ok x) = r.
Proof. destruct r; reflexivity. Qed.

Lemma messages_to_prompt_Mistral {LU : LlamaUtils} (messages : list ChatMessage) :
  messages_to_prompt MistralPromptStyle messages = Mistral_blocks [] messages.
Proof.
  unfold messages_to_prompt; simpl.
  unfold AbstractPromptStyle_messages_to_prompt; simpl.
  rewrite bind_Ok_r. apply Mistral_messages_to_prompt_blocks.
Qed.

(** The blocks are produced exactly when every role is supported; failing
    that, the error names the role of an unsupported message. *)
Lemma Mistral_blocks_result (messages : list ChatMessage) :
  forall buffer,
    match Mistral_blocks buffer messages with
    | Ok _ => Forall (fun m => supported_role (role m) = true) messages
    | Raise e =>
        exists m, m ∈ messages /\ supported_role (role m) = false
                  /\ e = UnknownMessageRole (role m)
    end.
Proof.
  induction messages as [|m rest IH]; intros buffer; simpl.
  - constructor.
  - destruct (role m) eqn:Hrole.
    1, 2: specialize (IH (buffer ++ [strip (str (content m))]));
      destruct (Mistral_blocks _ rest) as [out|e];
      [ constructor; [rewrite Hrole; reflexivity|exact IH]
      | destruct IH as (m' & Hin & Hbad & He); exists m';
        split; [right; exact Hin|split; assumption] ].
    + specialize (IH []).
      destruct (Mistral_blocks [] rest) as [out|e]; simpl.
      * constructor; [rewrite Hrole; reflexivity|exact IH].
      * destruct IH as (m' & Hin & Hbad & He). exists m'.
        split; [right; exact Hin|split; assumption].
    + exists m. rewrite Hrole. split; [left|split; reflexivity].
    + exists m. rewrite Hrole. split; [left|split; reflexivity].
Qed.


(** C5, on a concrete input: with the llama_utils of llama_index, the
    Llama2 style raises on the conversation of one TOOL message, the
    assertion of the library on the role failing; and a Default style
    raises on it as on any conversation, its attribute being [None].  So
    styles other than Mistral do raise. *)
Lemma other_styles_raise_on_tool_role :
  Llama2PromptStyle <> MistralPromptStyle
  /\ messages_to_prompt (LU := LlamaIndex.llama_utils) Llama2PromptStyle
       [mkChatMessage (Some "x") TOOL]
     = Raise (LibraryError "AssertionError")
  /\ DefaultPromptStyle <> MistralPromptStyle
  /\ messages_to_prompt (LU := LlamaIndex.llama_utils) DefaultPromptStyle
       [mkChatMessage (Some "x") TOOL]
     = Raise NoneTypeNotCallable.
Proof. repeat split; discriminate. Qed.

(** C5, amended: the Mistral style raises on a conversation exactly when
    one of its messages has a role other than SYSTEM, USER and ASSISTANT;
    what it raises is the unsupported-role error for the role of such a
    message, and then no prompt is returned.  No other style raises that
    error.  Tag, CodeLlama and ChatML raise nothing and return a prompt
    whatever the roles are; the Llama2 style returns or raises what
    [messages_to_prompt] of llama_utils returns or raises on the
    conversation; and calling [messages_to_prompt] on a Default style
    raises whatever the conversation is, the attribute being [None]. *)
Theorem Mistral_raises_iff_unsupported_role {LU : LlamaUtils}
    (messages : list ChatMessage) :
  ((exists e, messages_to_prompt MistralPromptStyle messages = Raise e)
   <-> Exists (fun m => supported_role (role m) = false) messages)
  /\ (forall e, messages_to_prompt MistralPromptStyle messages = Raise e ->
        (exists m, m ∈ messages /\ supported_role (role m) = false
                   /\ e = UnknownMessageRole (role m))
        /\ forall prompt, messages_to_prompt MistralPromptStyle messages <> Ok prompt)
  /\ (forall style r, style <> MistralPromptStyle ->
        messages_to_prompt style messages <> Raise (UnknownMessageRole r))
  /\ (forall style,
        style ∈ [TagPromptStyle; CodeLlamaPromptStyle; ChatMLPromptStyle] ->
        exists prompt, messages_to_prompt style messages = Ok prompt)
  /\ messages_to_prompt Llama2PromptStyle messages
     = from_library (llama_messages_to_prompt messages)
  /\ messages_to_prompt DefaultPromptStyle messages = Raise NoneTypeNotCallable.
Proof.
  pose proof (Mistral_blocks_result messages []) as Hres.
  rewrite <- messages_to_prompt_Mistral in Hres.
  split; [split|split; [|split; [|split; [|split]]]].
  - intros [e He]. rewrite He in Hres.
    destruct Hres as (m & Hin & Hbad & _).
    apply Exists_exists. exists m. split; assumption.
  - intros Hex. destruct (messages_to_prompt MistralPromptStyle messages) as [out|e].
    + apply Exists_exists in Hex as (m & Hin & Hbad).
      rewrite Forall_forall in Hres. rewrite (Hres m Hin) in Hbad. discriminate.
    + exists e. reflexivity.
  - intros e He. rewrite He in Hres. split; [exact Hres|].
    intros prompt Hok. rewrite He in Hok. discriminate Hok.
  - intros style r Hstyle.
    destruct style; unfold messages_to_prompt; simpl;
      unfold AbstractPromptStyle_messages_to_prompt; simpl;
      try discriminate; [|contradiction].
    destruct (llama_messages_to_prompt messages); discriminate.
  - intros style Hstyle. cases_elem_of Hstyle; eexists; reflexivity.
  - unfold messages_to_prompt; simpl.
    unfold AbstractPromptStyle_messages_to_prompt; simpl.
    destruct (llama_messages_to_prompt messages); reflexivity.
  - reflexivity.
Qed.

Lemma Mistral_raises_iff_unsupported_role_witness :
  exists e,
    messages_to_prompt (LU := LlamaIndex.llama_utils) MistralPromptStyle
      [mkChatMessage (Some "hi") USER; mkChatMessage (Some "42") FUNCTION]
    = Raise e.
Proof.
  apply (proj1 (Mistral_raises_iff_unsupported_role
                  (LU := LlamaIndex.llama_utils)
                  [mkChatMessage (Some "hi") USER;
                   mkChatMessage (Some "42") FUNCTION])).
  apply Exists_cons_tl, Exists_cons_hd. reflexivity.
Defined.



(** ** The ChatML style *)

Lemma ChatML_pieces_filter (messages : list ChatMessage) :
  concat_all (ChatML_piece <$> List.filter is_system_or_user messages)
  = concat_all (ChatML_piece <$> messages).
Proof.
  induction messages as [|m rest IH]; [reflexivity|].
  cbn [List.filter]. rewrite (fmap_cons ChatML_piece m rest).
  destruct (is_system_or_user m) eqn:Hm.
  - rewrite fmap_cons. cbn [concat_all]. rewrite IH. reflexivity.
  - assert (Hpiece : ChatML_piece m = "").
    { unfold is_system_or_user in Hm. unfold ChatML_piece.
      destruct (role m); try discriminate Hm; reflexivity. }
    cbn [concat_all]. rewrite Hpiece, IH. reflexivity.
Qed.

(** C7: the ChatML style formats [SYSTEM:"S", USER:"U"] as the
    specification says; on every conversation it returns a prompt, the
    one it returns for the SYSTEM and USER messages alone: messages of
    any other role, ASSISTANT among them, leave no trace and raise
    nothing. *)
Theorem ChatML_skips_other_roles {LU : LlamaUtils} :
  messages_to_prompt ChatMLPromptStyle
    [mkChatMessage (Some "S") SYSTEM; mkChatMessage (Some "U") USER]
  = Ok ("<|im_start|>system" +:+ LF +:+ "S<|im_end|>" +:+ LF
        +:+ "<|im_start|>user" +:+ LF +:+ "U<|im_end|>" +:+ LF
        +:+ "<|im_start|>assistant" +:+ LF)
  /\ forall messages,
       messages_to_prompt ChatMLPromptStyle messages
       = messages_to_prompt ChatMLPromptStyle
           (List.filter is_system_or_user messages)
       /\ exists prompt, messages_to_prompt ChatMLPromptStyle messages = Ok prompt.
Proof.
  split; [reflexivity|].
  intros messages. split; [|eexists; reflexivity].
  unfold messages_to_prompt; simpl.
  unfold AbstractPromptStyle_messages_to_prompt; simpl. f_equal.
  rewrite !ChatML_messages_to_prompt_format, ChatML_pieces_filter.
  reflexivity.
Qed.

(** ** The Tag style *)

(** C8: the Tag style formats [SYSTEM:"S", USER:"hi "] as the
    specification says; on every conversation it writes one line per
    message, in the order of the conversation, made of the role in lower
    case between the tag marks, a colon, a space and the trimmed content,
    and after the lines the assistant cue, which no line feed follows. *)
Theorem Tag_lines_then_cue {LU : LlamaUtils} :
  messages_to_prompt TagPromptStyle
    [mkChatMessage (Some "S") SYSTEM; mkChatMessage (Some "hi ") USER]
  = Ok ("<|system|>: S" +:+ LF +:+ "<|user|>: hi" +:+ LF +:+ "<|assistant|>: ")
  /\ forall messages,
       messages_to_prompt TagPromptStyle messages
       = Ok (concat_all
               ((fun m => "<|" +:+ lower (role_value (role m)) +:+ "|>: "
                          +:+ strip (text_of m) +:+ LF) <$> messages)
             +:+ "<|assistant|>: ").
Proof.
  split; [reflexivity|].
  intros messages. unfold messages_to_prompt; simpl.
  unfold AbstractPromptStyle_messages_to_prompt; simpl. f_equal.
  apply Tag_messages_to_prompt_format.
Qed.

(** ** Whitespace *)

Lemma strip_content_role (m : ChatMessage) : role (strip_content m) = role m.
Proof. reflexivity. Qed.

Lemma strip_content_or_else (m : ChatMessage) :
  strip (or_else (content (strip_content m)) "") = strip (or_else (content m) "").
Proof.
  rewrite !or_else_empty. destruct m as [[s|] r]; simpl; [|reflexivity].
  apply strip_idempotent.
Qed.

Lemma strip_content_str (m : ChatMessage) :
  strip (str (content (strip_content m))) = strip (str (content m)).
Proof.
  destruct m as [[s|] r]; simpl; [|reflexivity].
  apply strip_idempotent.
Qed.

Lemma Mistral_ignores_strip_content (messages : list ChatMessage) :
  Mistral_messages_to_prompt (strip_content <$> messages)
  = Mistral_messages_to_prompt messages.
Proof.
  unfold Mistral_messages_to_prompt.
  rewrite (for_each_body_ignores Mistral_loop_body strip_content); [reflexivity|].
  intros [inst_buffer text] m. unfold Mistral_loop_body.
  rewrite strip_content_role, strip_content_str. reflexivity.
Qed.

(** C9, on a concrete input: with the llama_utils of llama_index, the
    Llama2 style writes the content [" hi "] of a USER message into the
    prompt with its surrounding spaces, so that the prompt is not the
    one of the trimmed content. *)
Lemma Llama2_keeps_surrounding_space :
  messages_to_prompt (LU := LlamaIndex.llama_utils) Llama2PromptStyle
    [mkChatMessage (Some "S") SYSTEM; mkChatMessage (Some " hi ") USER]
  = Ok ("<s> [INST] <<SYS>>" +:+ LF +:+ " S " +:+ LF +:+ "<</SYS>>" +:+ LF +:+ LF
        +:+ "  hi  [/INST]")
  /\ messages_to_prompt (LU := LlamaIndex.llama_utils) Llama2PromptStyle
       (strip_content <$>
          [mkChatMessage (Some "S") SYSTEM; mkChatMessage (Some " hi ") USER])
     <> messages_to_prompt (LU := LlamaIndex.llama_utils) Llama2PromptStyle
          [mkChatMessage (Some "S") SYSTEM; mkChatMessage (Some " hi ") USER].
Proof. split; [reflexivity|]. vm_compute. intros H. discriminate H. Qed.

(** C9, amended: for the Tag, Mistral, CodeLlama and ChatML styles and
    every conversation, the whitespace around the content of a message
    never reaches the prompt: the prompt is the one of the conversation
    whose contents are stripped, and a stripped content neither begins
    nor ends with whitespace.  The Llama2 style hands the conversation
    as it is to [messages_to_prompt] of llama_utils and trims nothing
    itself. *)
Theorem own_formatters_trim_content {LU : LlamaUtils}
    (messages : list ChatMessage) :
  (forall style, style ∈ OWN_FORMATTERS ->
     messages_to_prompt style (strip_content <$> messages)
     = messages_to_prompt style messages)
  /\ (forall content,
        starts_with_space (strip content) = false
        /\ ends_with_space (strip content) = false)
  /\ messages_to_prompt Llama2PromptStyle messages
     = from_library (llama_messages_to_prompt messages).
Proof.
  destruct (or_else_formatters_ignore strip_content messages
              strip_content_role strip_content_or_else)
    as (HTag & HCodeLlama & HChatML).
  pose proof (Mistral_ignores_strip_content messages) as HMistral.
  repeat split.
  - intros style Hstyle. unfold OWN_FORMATTERS in Hstyle.
    cases_elem_of Hstyle; unfold messages_to_prompt; simpl;
      unfold AbstractPromptStyle_messages_to_prompt; simpl;
      f_equal; assumption.
  - apply strip_no_surrounding_space.
  - apply strip_no_surrounding_space.
  - unfold messages_to_prompt; simpl.
    unfold AbstractPromptStyle_messages_to_prompt; simpl.
    apply bind_Ok_r.
Qed.

Lemma own_formatters_trim_content_witness :
  (TagPromptStyle ∈ OWN_FORMATTERS)
  /\ messages_to_prompt (LU := LlamaIndex.llama_utils) TagPromptStyle
       (strip_content <$> [mkChatMessage (Some "  hi ") USER])
     = messages_to_prompt (LU := LlamaIndex.llama_utils) TagPromptStyle
         [mkChatMessage (Some "  hi ") USER].
Proof.
  assert (Hin : TagPromptStyle ∈ OWN_FORMATTERS).
  { unfold OWN_FORMATTERS. rewrite !elem_of_cons. tauto. }
  split; [exact Hin|].
  exact (proj1 (own_formatters_trim_content (LU := LlamaIndex.llama_utils)
                  [mkChatMessage (Some "  hi ") USER]) TagPromptStyle Hin).
Defined.

(** ** Further properties of the formatters *)

Lemma messages_to_prompt_CodeLlama {LU : LlamaUtils} (messages : list ChatMessage) :
  messages_to_prompt CodeLlamaPromptStyle messages
  = Ok (CodeLlama_messages_to_prompt messages).
Proof. reflexivity. Qed.

Lemma messages_to_prompt_ChatML {LU : LlamaUtils} (messages : list ChatMessage) :
  messages_to_prompt ChatMLPromptStyle messages
  = Ok (ChatML_messages_to_prompt messages).
Proof. reflexivity. Qed.

Lemma messages_to_prompt_Tag {LU : LlamaUtils} (messages : list ChatMessage) :
  messages_to_prompt TagPromptStyle messages = Ok (Tag_messages_to_prompt messages).
Proof. reflexivity. Qed.

(** X1: the CodeLlama style returns, for every conversation, the opening
    [<s>], then for each message in order its source line with the role
    in lower case, an empty line, a space, the trimmed content (absent
    read as empty) and the step mark, and last the fixed cue for the
    assistant; nothing separates the segments and no role is refused. *)
Theorem CodeLlama_segments_then_cue {LU : LlamaUtils}
    (messages : list ChatMessage) :
  messages_to_prompt CodeLlamaPromptStyle messages
  = Ok ("<s>"
        +:+ concat_all
              ((fun m => "Source: " +:+ lower (role_value (role m)) +:+ LF +:+ LF
                         +:+ " " +:+ strip (text_of m) +:+ " <step> ")
                 <$> messages)
        +:+ "Source: assistant" +:+ LF +:+ "Destination: user" +:+ LF +:+ LF +:+ " ").
Proof.
  rewrite messages_to_prompt_CodeLlama. f_equal.
  apply CodeLlama_messages_to_prompt_format.
Qed.

(** X2: the ChatML style returns, for every conversation, the opening of
    a system block, then what each message adds in order, then the
    opening of the assistant block.  A SYSTEM message adds its trimmed
    content and nothing else, so that system contents in a row run
    together and the system block is closed only by a USER message; a
    USER message adds the end mark, its own block with its trimmed
    content, and the end mark; any other message adds nothing. *)
Theorem ChatML_pieces_in_order {LU : LlamaUtils} (messages : list ChatMessage) :
  messages_to_prompt ChatMLPromptStyle messages
  = Ok ("<|im_start|>system" +:+ LF
        +:+ concat_all
              ((fun m =>
                  match role m with
                  | SYSTEM => strip (text_of m)
                  | USER =>
                      "<|im_end|>" +:+ LF +:+ "<|im_start|>user" +:+ LF
                      +:+ strip (text_of m) +:+ "<|im_end|>" +:+ LF
                  | _ => ""
                  end) <$> messages)
        +:+ "<|im_start|>assistant" +:+ LF).
Proof.
  rewrite messages_to_prompt_ChatML. f_equal.
  apply ChatML_messages_to_prompt_format.
Qed.

(** X3: on every text, [completion_to_prompt] of the Tag, Mistral,
    CodeLlama and ChatML styles returns a prompt and raises nothing: the
    fixed frame of the style around the trimmed text, said by the user.
    The ChatML frame has an empty system block before the text. *)
Theorem completion_frames {LU : LlamaUtils} (completion : string) :
  completion_to_prompt TagPromptStyle completion
  = Ok ("<|user|>: " +:+ strip completion +:+ LF +:+ "<|assistant|>: ")
  /\ completion_to_prompt MistralPromptStyle completion
     = Ok ("<s>[INST] " +:+ strip completion +:+ " [/INST]")
  /\ completion_to_prompt CodeLlamaPromptStyle completion
     = Ok ("<s>Source: user" +:+ LF +:+ LF +:+ " " +:+ strip completion
           +:+ " <step> Source: assistant" +:+ LF +:+ "Destination: user"
           +:+ LF +:+ LF +:+ " ")
  /\ completion_to_prompt ChatMLPromptStyle completion
     = Ok ("<|im_start|>system" +:+ LF +:+ "<|im_end|>" +:+ LF
           +:+ "<|im_start|>user" +:+ LF +:+ strip completion +:+ "<|im_end|>"
           +:+ LF +:+ "<|im_start|>assistant" +:+ LF).
Proof.
  split; [|split; [reflexivity|split]].
  - change (completion_to_prompt TagPromptStyle completion)
      with (Ok (Tag_messages_to_prompt [mkChatMessage (Some completion) USER])).
    f_equal. rewrite Tag_messages_to_prompt_format.
    unfold Tag_format, Tag_line, text_of. simpl.
    rewrite append_empty_r, !append_assoc. reflexivity.
  - change (completion_to_prompt CodeLlamaPromptStyle completion)
      with (Ok (CodeLlama_messages_to_prompt
                  [mkChatMessage (Some completion) USER])).
    f_equal. rewrite CodeLlama_messages_to_prompt_format.
    unfold CodeLlama_segment, text_of. simpl.
    rewrite append_empty_r, !append_assoc. reflexivity.
  - change (completion_to_prompt ChatMLPromptStyle completion)
      with (Ok (ChatML_messages_to_prompt [mkChatMessage (Some completion) USER])).
    f_equal. rewrite ChatML_messages_to_prompt_format.
    unfold ChatML_piece, text_of. simpl.
    rewrite append_empty_r, !append_assoc. reflexivity.
Qed.

(** The blocks of a conversation cut after an ASSISTANT message: those up
    to the message, then those of the rest, read from an empty buffer. *)
Lemma Mistral_blocks_cut (before : list ChatMessage) (c : option string)
    (rest : list ChatMessage) :
  forall buffer,
    Mistral_blocks buffer (before ++ mkChatMessage c ASSISTANT :: rest)
    = (let* head := Mistral_blocks buffer (before ++ [mkChatMessage c ASSISTANT]) in
       let* tail := Mistral_blocks [] rest in
       Ok (head +:+ tail)).
Proof.
  induction before as [|m before IH]; intros buffer; simpl.
  - destruct (Mistral_blocks [] rest) as [tail|e]; simpl; [|reflexivity].
    rewrite append_empty_r, !append_assoc. reflexivity.
  - destruct (role m); try reflexivity.
    + apply IH.
    + apply IH.
    + rewrite IH.
      destruct (Mistral_blocks [] (before ++ [mkChatMessage c ASSISTANT]))
        as [head|e]; simpl; [|reflexivity].
      destruct (Mistral_blocks [] rest) as [tail|e]; simpl; [|reflexivity].
      rewrite !append_assoc. reflexivity.
Qed.

(** X4: the Mistral style formats a conversation turn by turn.  Cut
    after any ASSISTANT message, the prompt of the whole is the prompt of
    the part up to that message followed by the prompt of the rest; when
    either part raises, so does the whole, with the error of the first
    part that raises. *)
Theorem Mistral_cut_after_assistant {LU : LlamaUtils}
    (before : list ChatMessage) (c : option string) (rest : list ChatMessage) :
  messages_to_prompt MistralPromptStyle
    (before ++ mkChatMessage c ASSISTANT :: rest)
  = (let* head := messages_to_prompt MistralPromptStyle
                    (before ++ [mkChatMessage c ASSISTANT]) in
     let* tail := messages_to_prompt MistralPromptStyle rest in
     Ok (head +:+ tail)).
Proof. rewrite !messages_to_prompt_Mistral. apply Mistral_blocks_cut. Qed.

Lemma Mistral_blocks_turns (turns : list (string * string))
    (rest : list ChatMessage) :
  Mistral_blocks [] (flat_map turn_messages turns ++ rest)
  = (let* tail := Mistral_blocks [] rest in
     Ok (concat_all (turn_block <$> turns) +:+ tail)).
Proof.
  induction turns as [|[question answer] turns IH]; simpl.
  - destruct (Mistral_blocks [] rest); reflexivity.
  - rewrite IH.
    destruct (Mistral_blocks [] rest) as [tail|e]; simpl; [|reflexivity].
    unfold turn_block, instruction_block. simpl.
    rewrite !append_assoc. reflexivity.
Qed.

(** X5: for a chat of questions and answers in turn, the Mistral style
    returns one closed block per turn, the blocks following each other
    with nothing between them; a question still waiting for its answer
    adds the block left open for the model to continue. *)
Theorem Mistral_chat_turns {LU : LlamaUtils} (turns : list (string * string)) :
  messages_to_prompt MistralPromptStyle (flat_map turn_messages turns)
  = Ok (concat_all (turn_block <$> turns))
  /\ forall question,
       messages_to_prompt MistralPromptStyle
         (flat_map turn_messages turns ++ [mkChatMessage (Some question) USER])
       = Ok (concat_all (turn_block <$> turns)
             +:+ "<s>[INST] " +:+ strip question +:+ " [/INST]").
Proof.
  split.
  - rewrite messages_to_prompt_Mistral.
    rewrite <- (app_nil_r (flat_map turn_messages turns)).
    rewrite Mistral_blocks_turns. simpl.
    rewrite append_empty_r. reflexivity.
  - intros question. rewrite messages_to_prompt_Mistral, Mistral_blocks_turns.
    reflexivity.
Qed.

Lemma Mistral_loop_body_system_as_user (st : list string * string)
    (m : ChatMessage) :
  Mistral_loop_body st (system_as_user m) = Mistral_loop_body st m.
Proof. destruct st as [inst_buffer text], m as [c []]; reflexivity. Qed.

(** X6: the Mistral style does not tell a system message from a user
    message: the prompt of a conversation is the one it has when every
    SYSTEM message is given the role USER, and so is the error, if any. *)
Theorem Mistral_system_is_instruction {LU : LlamaUtils}
    (messages : list ChatMessage) :
  messages_to_prompt MistralPromptStyle (system_as_user <$> messages)
  = messages_to_prompt MistralPromptStyle messages.
Proof.
  unfold messages_to_prompt; simpl.
  unfold AbstractPromptStyle_messages_to_prompt; simpl. f_equal.
  unfold Mistral_messages_to_prompt.
  rewrite (for_each_body_ignores Mistral_loop_body system_as_user);
    [reflexivity|].
  apply Mistral_loop_body_system_as_user.
Qed.

Lemma Mistral_blocks_first_unsupported (before : list ChatMessage)
    (m : ChatMessage) (after : list ChatMessage) :
  Forall (fun x => supported_role (role x) = true) before ->
  supported_role (role m) = false ->
  forall buffer,
    Mistral_blocks buffer (before ++ m :: after) = Raise (UnknownMessageRole (role m)).
Proof.
  intros Hbefore Hm.
  induction Hbefore as [|x before Hx Hbefore IH]; intros buffer; simpl.
  - destruct (role m); try discriminate Hm; reflexivity.
  - destruct (role x); try discriminate Hx.
    + apply IH.
    + apply IH.
    + rewrite IH. reflexivity.
Qed.

(** X7: when a conversation has messages of unsupported roles, the
    Mistral style raises the error of the first of them: after messages
    whose roles are all SYSTEM, USER or ASSISTANT, a message of another
    role makes the call raise the unknown-role error for that role,
    whatever follows it. *)
Theorem Mistral_raises_first_unsupported_role {LU : LlamaUtils}
    (before : list ChatMessage) (m : ChatMessage) (after : list ChatMessage) :
  Forall (fun x => supported_role (role x) = true) before ->
  supported_role (role m) = false ->
  messages_to_prompt MistralPromptStyle (before ++ m :: after)
  = Raise (UnknownMessageRole (role m)).
Proof.
  intros Hbefore Hm. rewrite messages_to_prompt_Mistral.
  apply Mistral_blocks_first_unsupported; assumption.
Qed.

Lemma Mistral_raises_first_unsupported_role_witness :
  messages_to_prompt (LU := LlamaIndex.llama_utils) MistralPromptStyle
    ([mkChatMessage (Some "hi") USER; mkChatMessage (Some "yo") ASSISTANT]
       ++ mkChatMessage (Some "1") TOOL :: [mkChatMessage (Some "2") FUNCTION])
  = Raise (UnknownMessageRole TOOL).
Proof.
  apply (Mistral_raises_first_unsupported_role (LU := LlamaIndex.llama_utils)
           [mkChatMessage (Some "hi") USER; mkChatMessage (Some "yo") ASSISTANT]
           (mkChatMessage (Some "1") TOOL)
           [mkChatMessage (Some "2") FUNCTION]).
  - repeat constructor.
  - reflexivity.
Defined.

Lemma strip_all_space (s : string) : all_space s = true -> strip s = "".
Proof.
  intros Hs. unfold strip.
  assert (Hl : lstrip s = "").
  { induction s as [|c s IH]; simpl in *; [reflexivity|].
    apply andb_prop in Hs as [Hc Hs]. rewrite Hc. apply IH, Hs. }
  rewrite Hl. reflexivity.
Qed.

Lemma blank_to_empty_role (m : ChatMessage) : role (blank_to_empty m) = role m.
Proof.
  unfold blank_to_empty. destruct (content m) as [c|]; [|reflexivity].
  destruct (all_space c); reflexivity.
Qed.

Lemma blank_to_empty_or_else (m : ChatMessage) :
  strip (or_else (content (blank_to_empty m)) "") = strip (or_else (content m) "").
Proof.
  unfold blank_to_empty. destruct (content m) as [c|] eqn:Hc; [|rewrite Hc; reflexivity].
  destruct (all_space c) eqn:Hspace; [|rewrite Hc; reflexivity].
  rewrite !or_else_empty. simpl. symmetry. apply strip_all_space, Hspace.
Qed.

Lemma blank_to_empty_str (m : ChatMessage) :
  strip (str (content (blank_to_empty m))) = strip (str (content m)).
Proof.
  unfold blank_to_empty. destruct (content m) as [c|] eqn:Hc; [|rewrite Hc; reflexivity].
  destruct (all_space c) eqn:Hspace; [|rewrite Hc; reflexivity].
  simpl. symmetry. apply strip_all_space, Hspace.
Qed.

(** The Mistral formatter looks at a message through its role and
    through its content as [str] shows it, stripped. *)
Lemma Mistral_formatter_ignores (f : ChatMessage -> ChatMessage)
    (messages : list ChatMessage) :
  (forall m, role (f m) = role m) ->
  (forall m, strip (str (content (f m))) = strip (str (content m))) ->
  Mistral_messages_to_prompt (f <$> messages) = Mistral_messages_to_prompt messages.
Proof.
  intros Hrole Htext. unfold Mistral_messages_to_prompt.
  rewrite (for_each_body_ignores Mistral_loop_body f); [reflexivity|].
  intros [inst_buffer text] m. unfold Mistral_loop_body.
  rewrite Hrole, Htext. reflexivity.
Qed.

(** X8: for the Tag, Mistral, CodeLlama and ChatML styles a message whose
    content is made of whitespace only counts as a message with the
    empty content: making every such content empty leaves the prompt,
    or the error, of any conversation as it is. *)
Theorem blank_content_is_empty {LU : LlamaUtils} (style : PromptStyle)
    (messages : list ChatMessage) :
  style ∈ OWN_FORMATTERS ->
  messages_to_prompt style (blank_to_empty <$> messages)
  = messages_to_prompt style messages.
Proof.
  destruct (or_else_formatters_ignore blank_to_empty messages
              blank_to_empty_role blank_to_empty_or_else)
    as (HTag & HCodeLlama & HChatML).
  pose proof (Mistral_formatter_ignores blank_to_empty messages
                blank_to_empty_role blank_to_empty_str) as HMistral.
  intros Hstyle. unfold OWN_FORMATTERS in Hstyle.
  cases_elem_of Hstyle; unfold messages_to_prompt; simpl;
    unfold AbstractPromptStyle_messages_to_prompt; simpl;
    f_equal; assumption.
Qed.

Lemma blank_content_is_empty_witness :
  messages_to_prompt (LU := LlamaIndex.llama_utils) MistralPromptStyle
    (blank_to_empty <$>
       [mkChatMessage (Some "  ") SYSTEM; mkChatMessage (Some "hi") USER])
  = messages_to_prompt (LU := LlamaIndex.llama_utils) MistralPromptStyle
      [mkChatMessage (Some "  ") SYSTEM; mkChatMessage (Some "hi") USER].
Proof.
  apply (blank_content_is_empty (LU := LlamaIndex.llama_utils) MistralPromptStyle).
  unfold OWN_FORMATTERS. rewrite !elem_of_cons. tauto.
Defined.

(** ** Further properties of the style table *)

Lemma get_prompt_style_known (name : option string) (style : PromptStyle) :
  get_prompt_style name = Ok style -> name ∈ STYLE_NAMES.
Proof.
  intros Hget. destruct (decide (name ∈ STYLE_NAMES)) as [Hin|Hout]; [exact Hin|].
  rewrite (get_prompt_style_unknown name Hout) in Hget. discriminate Hget.
Qed.

(** X9: every prompt style can be asked for by name, and no two names
    give the same style: two strings on which [get_prompt_style] returns
    the same style are the same string. *)
Theorem get_prompt_style_names :
  (forall style, exists name, get_prompt_style (Some name) = Ok style)
  /\ (forall a b style,
        get_prompt_style (Some a) = Ok style ->
        get_prompt_style (Some b) = Ok style ->
        a = b).
Proof.
  split.
  - intros [].
    + exists "default". reflexivity.
    + exists "llama2". reflexivity.
    + exists "tag". reflexivity.
    + exists "mistral". reflexivity.
    + exists "codellama". reflexivity.
    + exists "chatml". reflexivity.
  - intros a b style Ha Hb.
    pose proof (get_prompt_style_known _ _ Ha) as Hina.
    pose proof (get_prompt_style_known _ _ Hb) as Hinb.
    unfold STYLE_NAMES in Hina, Hinb.
    rewrite !elem_of_cons, elem_of_nil in Hina, Hinb.
    destruct_or!; simplify_eq; try reflexivity;
      vm_compute in Ha, Hb; congruence.
Qed.

Lemma get_prompt_style_names_witness :
  get_prompt_style (Some "mistral") = Ok MistralPromptStyle
  /\ "mistral" = "mistral".
Proof.
  split; [reflexivity|].
  apply (proj2 get_prompt_style_names "mistral" "mistral" MistralPromptStyle);
    reflexivity.
Defined.

(** X10: among the styles that [get_prompt_style] returns, the ones whose
    attributes [messages_to_prompt] and [completion_to_prompt] hold
    [None] are exactly those returned for the absent name and for
    ["default"]; for every other known name both attributes hold a
    method. *)
Theorem resolved_style_attributes {LU : LlamaUtils}
    (name : option string) (style : PromptStyle) :
  get_prompt_style name = Ok style ->
  ((attr_messages_to_prompt style = None /\ attr_completion_to_prompt style = None)
   <-> name ∈ [None; Some "default"])
  /\ (name ∉ [None; Some "default"] ->
      is_Some (attr_messages_to_prompt style)
      /\ is_Some (attr_completion_to_prompt style)).
Proof.
  intros Hget.
  pose proof (get_prompt_style_known _ _ Hget) as Hin.
  unfold STYLE_NAMES in Hin.
  rewrite !elem_of_cons, elem_of_nil in Hin.
  rewrite !elem_of_cons, elem_of_nil.
  destruct_or!; simplify_eq; vm_compute in Hget; simplify_eq;
    (split; [split|]);
    try (intros [Hm _]; discriminate Hm);
    try (intros _; split; reflexivity);
    try (intros _; tauto);
    try (intros Hout; exfalso; apply Hout; tauto);
    try (intros _; split; eexists; reflexivity);
    try (intros H; destruct_or!; simplify_eq).
Qed.

Lemma resolved_style_attributes_witness :
  is_Some (attr_messages_to_prompt (LU := LlamaIndex.llama_utils) ChatMLPromptStyle)
  /\ is_Some (attr_completion_to_prompt (LU := LlamaIndex.llama_utils) ChatMLPromptStyle).
Proof.
  apply (proj2 (resolved_style_attributes (LU := LlamaIndex.llama_utils)
                  (Some "chatml") ChatMLPromptStyle eq_refl)).
  rewrite !elem_of_cons, elem_of_nil. intros H. destruct_or!; simplify_eq.
Defined.
